(** * start_my_car.py: the remote-start runner and its device-key normalizer

    A shallow embedding of [src/start_my_car.py].  Python values are an
    inductive type, dictionaries are insertion-ordered association lists,
    exceptions are values of a sum type, and statements that read process
    state, print, call the [drone_mobile] client or raise are written in a
    state-and-exception monad. *)

From Stdlib Require Import ZArith Ascii String List Bool Lia.
From stdpp Require Import base option strings gmap pretty.
Import ListNotations.

Local Open Scope string_scope.
Local Open Scope Z_scope.

#[local] Set Warnings "-register-all".

(** ** Python values *)

(** The JSON-shaped part of Python's value universe: what the API client
    hands back for a vehicle record and for a command response.  A [str] is
    a sequence of code points below U+0100, one [ascii] per code point; a
    number is an [int].  [VObject] stands for an object of any other class
    (bytes, set, datetime, ...), of which the script can only see the class
    name and the truth value. *)
Inductive PyValue : Type :=
| VNone
| VBool (b : bool)
| VInt (n : Z)
| VStr (s : string)
| VList (items : list PyValue)
| VDict (items : list (string * PyValue))
| VObject (cls : string) (truth : bool).

(** [Dict[str, Any]]: the items in insertion order; a lookup takes the
    first item with the key. *)
Abbreviation PyDict := (list (string * PyValue)).

(** [bool(v)]: Python's truth value testing. *)
Definition py_bool (v : PyValue) : bool :=
  match v with
  | VNone => false
  | VBool b => b
  | VInt n => negb (n =? 0)
  | VStr s => negb (String.eqb s "")
  | VList items => match items with [] => false | _ :: _ => true end
  | VDict items => match items with [] => false | _ :: _ => true end
  | VObject _ truth => truth
  end.

(** [not v] *)
Definition py_not (v : PyValue) : bool := negb (py_bool v).

(** ** Exceptions *)

(** Exception objects, by what the handlers of the script can tell apart:
    the class ([except KeyError], [except Exception]) and [str(exc)]. *)
Inductive PyExc : Type :=
| KeyError_ (arg : string)
    (* KeyError(arg) with a str argument *)
| Exception_ (cls : string) (text : string)
    (* an instance of another subclass of Exception; str(exc) is [text] *)
| SystemExit_ (code : Z)
    (* raised by sys.exit(code) *)
| BaseException_ (cls : string) (text : string).
    (* derives from BaseException but not from Exception:
       KeyboardInterrupt, GeneratorExit *)

(** [isinstance(exc, Exception)] *)
Definition is_Exception (exc : PyExc) : bool :=
  match exc with
  | KeyError_ _ | Exception_ _ _ => true
  | SystemExit_ _ | BaseException_ _ _ => false
  end.

(** [isinstance(exc, KeyError)] *)
Definition is_KeyError (exc : PyExc) : bool :=
  match exc with
  | KeyError_ _ => true
  | _ => false
  end.

(** ** [repr] of strings and of lists of strings *)

Definition hex_digit (n : N) : ascii :=
  match n with
  | 0 => "0" | 1 => "1" | 2 => "2" | 3 => "3" | 4 => "4" | 5 => "5"
  | 6 => "6" | 7 => "7" | 8 => "8" | 9 => "9" | 10 => "a" | 11 => "b"
  | 12 => "c" | 13 => "d" | 14 => "e" | _ => "f"
  end%N%char.

(** the two lowercase hexadecimal digits of a code point below 256 *)
Definition hex2 (c : ascii) : string :=
  let n := N_of_ascii c in
  String (hex_digit (n / 16)) (String (hex_digit (n mod 16)) "").

Fixpoint str_contains (c : ascii) (s : string) : bool :=
  match s with
  | EmptyString => false
  | String c' s' => Ascii.eqb c c' || str_contains c s'
  end.

(** [str.isprintable] on one code point below U+0100: the C0 and C1
    controls, DEL, NO-BREAK SPACE and SOFT HYPHEN are not printable. *)
Definition py_isprintable (c : ascii) : bool :=
  let n := N_of_ascii c in
  ((32 <=? n) && (n <? 127) || (161 <=? n) && negb (n =? 173))%N.

(** the quote [repr] picks: double only if the text has a single quote and
    no double quote *)
Definition repr_quote (s : string) : ascii :=
  if str_contains "'" s && negb (str_contains "034" s) then "034"%char
  else "'"%char.

Definition repr_char (quote c : ascii) : string :=
  if Ascii.eqb c quote || Ascii.eqb c "\" then String "\" (String c "")
  else if Ascii.eqb c "009" then "\t"
  else if Ascii.eqb c "010" then "\n"
  else if Ascii.eqb c "013" then "\r"
  else if py_isprintable c then String c ""
  else "\x" ++ hex2 c.

Fixpoint repr_body (quote : ascii) (s : string) : string :=
  match s with
  | EmptyString => ""
  | String c s' => repr_char quote c ++ repr_body quote s'
  end.

(** [repr(s)] for a str *)
Definition py_repr_str (s : string) : string :=
  let q := repr_quote s in
  String q (repr_body q s ++ String q "").

Fixpoint join (sep : string) (parts : list string) : string :=
  match parts with
  | [] => ""
  | [p] => p
  | p :: rest => p ++ sep ++ join sep rest
  end.

(** [str(l)] = [repr(l)] for a list of str *)
Definition py_str_list (l : list string) : string :=
  "[" ++ join ", " (map py_repr_str l) ++ "]".

(** [str(exc)]: a KeyError shows the repr of its argument. *)
Definition py_str_exc (exc : PyExc) : string :=
  match exc with
  | KeyError_ arg => py_repr_str arg
  | Exception_ _ text => text
  | SystemExit_ code => pretty code
  | BaseException_ _ text => text
  end.

(** ** The state-and-exception monad *)

(** A statement run against a store [S]: it ends normally with a value or
    raises, and leaves a store behind either way. *)
Definition Py (S A : Type) : Type := S -> (PyExc + A) * S.

Definition ret {S A} (a : A) : Py S A := fun s => (inr a, s).

Definition raise {S A} (exc : PyExc) : Py S A := fun s => (inl exc, s).

Definition bind {S A B} (m : Py S A) (k : A -> Py S B) : Py S B :=
  fun s =>
    match m s with
    | (inr a, s') => k a s'
    | (inl exc, s') => (inl exc, s')
    end.

Notation "x <- m ;; k" := (bind m (fun x => k))
  (at level 100, m at next level, right associativity).
Notation "m ;;; k" := (bind m (fun _ => k))
  (at level 100, right associativity).

(** [try: body / except <cls> as exc: handler exc] *)
Definition try_except {S A} (body : Py S A) (catches : PyExc -> bool)
    (handler : PyExc -> Py S A) : Py S A :=
  fun s =>
    match body s with
    | (inr a, s') => (inr a, s')
    | (inl exc, s') =>
        if catches exc then handler exc s' else (inl exc, s')
    end.

(** [if cond: body] *)
Definition when {S} (cond : bool) (body : Py S unit) : Py S unit :=
  if cond then body else ret tt.

(** ** Dictionary operations on the object a function was handed *)

Fixpoint dict_lookup (key : string) (d : PyDict) : option PyValue :=
  match d with
  | [] => None
  | (k, v) :: d' => if String.eqb key k then Some v else dict_lookup key d'
  end.

(** [key in d] *)
Definition dict_contains (key : string) : Py PyDict bool :=
  fun d => (inr (bool_decide (is_Some (dict_lookup key d))), d).

(** [d[key]] *)
Definition dict_getitem (key : string) : Py PyDict PyValue :=
  fun d =>
    match dict_lookup key d with
    | Some v => (inr v, d)
    | None => (inl (KeyError_ key), d)
    end.

(** [list(d.keys())] *)
Definition dict_keys (d : PyDict) : list string := map fst d.

Definition dict_keys_list : Py PyDict (list string) :=
  fun d => (inr (dict_keys d), d).

(** ** [get_device_key] *)

Definition CANDIDATE_KEYS : list string :=
  ["device_key"; "deviceKey"; "deviceID"; "device_id"].

(** The [for key in (...)] loop; [Some v] is the [return v] inside it,
    [None] is the loop running to its end. *)
Fixpoint get_device_key_loop (keys : list string) : Py PyDict (option PyValue) :=
  match keys with
  | [] => ret None
  | key :: rest =>
      present <- dict_contains key ;;
      cond <- (if present
               then (v <- dict_getitem key ;; ret (py_bool v))
               else ret false) ;;
      if cond
      then (v <- dict_getitem key ;; ret (Some v))
      else get_device_key_loop rest
  end.

Definition get_device_key : Py PyDict PyValue :=
  found <- get_device_key_loop CANDIDATE_KEYS ;;
  match found with
  | Some v => ret v
  | None =>
      keys <- dict_keys_list ;;
      raise (KeyError_ ("Device key not found in vehicle info: "
                        ++ py_str_list keys))
  end.

(** The call [get_device_key(vehicle_info)] as an expression: its result. *)
Definition call_get_device_key (vehicle_info : PyDict) : PyExc + PyValue :=
  fst (get_device_key vehicle_info).


(** ** [json.dumps(obj, indent=n)] *)

(** One character of a JSON string under [ensure_ascii]: the short escapes,
    and [\u00hh] for everything else outside space..tilde. *)
Definition json_escape_char (c : ascii) : string :=
  if Ascii.eqb c "034" then String "\" (String "034" "")
  else if Ascii.eqb c "\" then "\\"
  else if Ascii.eqb c "008" then "\b"
  else if Ascii.eqb c "012" then "\f"
  else if Ascii.eqb c "010" then "\n"
  else if Ascii.eqb c "013" then "\r"
  else if Ascii.eqb c "009" then "\t"
  else if ((32 <=? N_of_ascii c) && (N_of_ascii c <? 127))%N then String c ""
  else "\u00" ++ hex2 c.

Fixpoint json_escape (s : string) : string :=
  match s with
  | EmptyString => ""
  | String c s' => json_escape_char c ++ json_escape s'
  end.

Definition json_str (s : string) : string :=
  String "034" (json_escape s ++ String "034" "").

Fixpoint spaces (n : nat) : string :=
  match n with
  | O => ""
  | S n' => String " " (spaces n')
  end.

(** a line break followed by the indentation of nesting depth [level] *)
Definition newline_indent (indent level : nat) : string :=
  String "010" (spaces (indent * level)).

(** what the encoder raises on an object it has no encoding for *)
Definition json_type_error (cls : string) : PyExc :=
  Exception_ "TypeError"
    ("Object of type " ++ cls ++ " is not JSON serializable").

(** The encoder with an indent: items one per line, [","] between items,
    [": "] after a key, keys in the dictionary's own order.  It walks the
    value depth first, left to right, and stops at the first object it
    cannot encode. *)
Fixpoint json_encode (indent level : nat) (v : PyValue) {struct v}
    : PyExc + string :=
  match v with
  | VNone => inr "null"
  | VBool true => inr "true"
  | VBool false => inr "false"
  | VInt n => inr (pretty n)
  | VStr s => inr (json_str s)
  | VObject cls _ => inl (json_type_error cls)
  | VList [] => inr "[]"
  | VList (x :: xs) =>
      match json_encode indent (S level) x with
      | inl exc => inl exc
      | inr first =>
          match (fix items (l : list PyValue) : PyExc + string :=
                   match l with
                   | [] => inr ""
                   | y :: l' =>
                       match json_encode indent (S level) y with
                       | inl exc => inl exc
                       | inr item =>
                           match items l' with
                           | inl exc => inl exc
                           | inr more =>
                               inr ("," ++ newline_indent indent (S level)
                                    ++ item ++ more)
                           end
                       end
                   end) xs with
          | inl exc => inl exc
          | inr more =>
              inr ("[" ++ newline_indent indent (S level) ++ first ++ more
                   ++ newline_indent indent level ++ "]")
          end
      end
  | VDict [] => inr "{}"
  | VDict ((k, x) :: kvs) =>
      match json_encode indent (S level) x with
      | inl exc => inl exc
      | inr first =>
          match (fix items (l : PyDict) : PyExc + string :=
                   match l with
                   | [] => inr ""
                   | (k', y) :: l' =>
                       match json_encode indent (S level) y with
                       | inl exc => inl exc
                       | inr item =>
                           match items l' with
                           | inl exc => inl exc
                           | inr more =>
                               inr ("," ++ newline_indent indent (S level)
                                    ++ json_str k' ++ ": " ++ item ++ more)
                           end
                       end
                   end) kvs with
          | inl exc => inl exc
          | inr more =>
              inr ("{" ++ newline_indent indent (S level)
                   ++ json_str k ++ ": " ++ first ++ more
                   ++ newline_indent indent level ++ "}")
          end
      end
  end.

(** [json.dumps(obj, indent=indent)]: the text, or the TypeError *)
Definition json_dumps (obj : PyValue) (indent : nat) : PyExc + string :=
  json_encode indent 0 obj.

(** ** The process around [main] *)

(** What a run does that can be seen from outside, in order: calls on the
    [drone_mobile] client and [print] calls on the two streams.  One
    [print] writes its text and a line break; the text itself may hold
    line breaks. *)
Inductive Event : Type :=
| CallVehicle (username password : PyValue)
| CallAuth
| CallGetAllVehicles
| CallStart (device_key : PyValue)
| PrintStdout (text : string)
| PrintStderr (text : string).

(** The [drone_mobile.Vehicle] class as the script uses it.  [client] is the
    state of the client object; a method that ends normally hands back the
    state it leaves the object in. *)
Record VehicleAPI (client : Type) : Type := {
  api_Vehicle : PyValue -> PyValue -> PyExc + client;
  api_auth : client -> PyExc + client;
  api_getAllVehicles : client -> PyExc + (option (list PyDict) * client);
  api_start : client -> PyValue -> PyExc + PyValue
}.
Arguments api_Vehicle {client}.
Arguments api_auth {client}.
Arguments api_getAllVehicles {client}.
Arguments api_start {client}.

Definition emit (e : Event) : Py (list Event) unit :=
  fun log => (inr tt, (log ++ [e])%list).

(** the result of an expression that touches no store *)
Definition eval {S A} (r : PyExc + A) : Py S A := fun s => (r, s).

(** [print(text)] and [print(text, file=sys.stderr)] *)
Definition print (text : string) : Py (list Event) unit :=
  emit (PrintStdout text).
Definition print_stderr (text : string) : Py (list Event) unit :=
  emit (PrintStderr text).

(** [sys.exit(code)] *)
Definition sys_exit {A} (code : Z) : Py (list Event) A :=
  raise (SystemExit_ code).

(** [os.environ.get(name)] *)
Definition os_environ_get (environ : gmap string string) (name : string)
    : PyValue :=
  match environ !! name with
  | Some s => VStr s
  | None => VNone
  end.

(** truth value of a sequence *)
Definition seq_bool {A} (l : list A) : bool :=
  match l with
  | [] => false
  | _ :: _ => true
  end.

(** [r or []] for a result that is a list or None *)
Definition or_empty {A} (r : option (list A)) : list A :=
  match r with
  | Some l => if seq_bool l then l else []
  | None => []
  end.

(** [l[0]] *)
Definition getitem0 {S A} (l : list A) : Py S A :=
  match l with
  | x :: _ => ret x
  | [] => raise (Exception_ "IndexError" "list index out of range")
  end.

Section Runner.
Context {client : Type}.
Variable api : VehicleAPI client.
Variable environ : gmap string string.

Definition Vehicle (username password : PyValue) : Py (list Event) client :=
  emit (CallVehicle username password) ;;;
  eval (api_Vehicle api username password).

Definition auth (c : client) : Py (list Event) client :=
  emit CallAuth ;;; eval (api_auth api c).

Definition getAllVehicles (c : client)
    : Py (list Event) (option (list PyDict) * client) :=
  emit CallGetAllVehicles ;;; eval (api_getAllVehicles api c).

Definition start (c : client) (device_key : PyValue)
    : Py (list Event) PyValue :=
  emit (CallStart device_key) ;;; eval (api_start api c device_key).

Definition main : Py (list Event) unit :=
  let username := os_environ_get environ "DRONEMOBILE_USERNAME" in
  let password := os_environ_get environ "DRONEMOBILE_PASSWORD" in
  when (py_not username || py_not password)
    (print_stderr "Error: Both DRONEMOBILE_USERNAME and DRONEMOBILE_PASSWORD must be set as environment variables." ;;;
     sys_exit 1) ;;;
  session <-
    try_except
      (vehicle_client <- Vehicle username password ;;
       vehicle_client <- auth vehicle_client ;;
       listed <- getAllVehicles vehicle_client ;;
       ret (snd listed, or_empty (fst listed)))
      is_Exception
      (fun exc =>
         print_stderr ("Error during authentication or vehicle retrieval: "
                       ++ py_str_exc exc) ;;;
         sys_exit 1) ;;
  let vehicle_client := fst session in
  let vehicles := snd session in
  when (negb (seq_bool vehicles))
    (print_stderr "Error: No vehicles were found on your DroneMobile account." ;;;
     sys_exit 1) ;;;
  first_vehicle <- getitem0 vehicles ;;
  device_key <-
    try_except
      (eval (call_get_device_key first_vehicle))
      is_KeyError
      (fun exc =>
         print_stderr ("Error extracting device key: " ++ py_str_exc exc) ;;;
         sys_exit 1) ;;
  response <-
    try_except
      (start vehicle_client device_key)
      is_Exception
      (fun exc =>
         print_stderr ("Error issuing remote start command: "
                       ++ py_str_exc exc) ;;;
         sys_exit 1) ;;
  text <- eval (json_dumps response 2) ;;
  print text.

End Runner.

(** How the interpreter ends the process. *)
Inductive ExitStatus : Type :=
| Exit (code : Z)
    (* normal end of the script (0) or SystemExit(code) *)
| Traceback (exc : PyExc).
    (* any other exception reached the top level *)

Record Outcome : Type := {
  trace : list Event;
  status : ExitStatus
}.

(** [if __name__ == "__main__": main()] *)
Definition run_script {client} (api : VehicleAPI client)
    (environ : gmap string string) : Outcome :=
  match main api environ [] with
  | (inr _, log) => {| trace := log; status := Exit 0 |}
  | (inl (SystemExit_ code), log) => {| trace := log; status := Exit code |}
  | (inl exc, log) => {| trace := log; status := Traceback exc |}
  end.

(** the texts printed to each stream, one entry per [print] call, and
    the calls on the client *)
Definition stdout_of (t : list Event) : list string :=
  flat_map (fun e => match e with PrintStdout s => [s] | _ => [] end) t.
Definition stderr_of (t : list Event) : list string :=
  flat_map (fun e => match e with PrintStderr s => [s] | _ => [] end) t.
Definition calls_of (t : list Event) : list Event :=
  List.filter (fun e => match e with
                   | PrintStdout _ | PrintStderr _ => false
                   | _ => true
                   end) t.

(** ** Scenarios *)

(** A fake client for the scenarios: its state is unit, and each operation
    has a fixed result. *)
Definition fake_api (constructed authed : PyExc + unit)
    (listing : PyExc + option (list PyDict))
    (started : PyExc + PyValue) : VehicleAPI unit :=
  {| api_Vehicle := fun _ _ => constructed;
     api_auth := fun _ => authed;
     api_getAllVehicles := fun _ =>
       match listing with
       | inr l => inr (l, tt)
       | inl exc => inl exc
       end;
     api_start := fun _ _ => started |}.

(** The client with the listed sequence passed through [f] before the
    script sees it. *)
Definition with_listing {client : Type}
    (f : option (list PyDict) -> option (list PyDict))
    (api : VehicleAPI client) : VehicleAPI client :=
  {| api_Vehicle := api_Vehicle api;
     api_auth := api_auth api;
     api_getAllVehicles := fun c =>
       match api_getAllVehicles api c with
       | inr (l, c') => inr (f l, c')
       | inl exc => inl exc
       end;
     api_start := api_start api |}.

Definition good_environ : gmap string string :=
  <["DRONEMOBILE_USERNAME" := "me@example.org"]>
    (<["DRONEMOBILE_PASSWORD" := "hunter2"]> ∅).


Definition good_listing : PyExc + option (list PyDict) :=
  inr (Some [[("deviceKey", VStr "abc123"); ("name", VStr "Car")];
             [("device_key", VStr "second"); ("name", VStr "Van")]]).

Definition ok_response : PyValue := VDict [("status", VStr "ok")].

(** Ctrl-C arrives while the client is inside [auth()], or inside
    [start()]. *)
Definition interrupted_auth_api : VehicleAPI unit :=
  fake_api (inr tt) (inl (BaseException_ "KeyboardInterrupt" ""))
    good_listing (inr ok_response).

Definition interrupted_start_api : VehicleAPI unit :=
  fake_api (inr tt) (inr tt) good_listing
    (inl (BaseException_ "KeyboardInterrupt" "")).

(** drop every record but the first *)
Definition only_first (l : option (list PyDict)) : option (list PyDict) :=
  match l with
  | Some (v :: _) => Some [v]
  | _ => l
  end.

(** ** The module body around [main] *)

(** [isinstance(exc, ImportError)], by class name: ImportError and the
    subclasses the standard library has. *)
Definition is_ImportError (exc : PyExc) : bool :=
  match exc with
  | Exception_ cls _ =>
      String.eqb cls "ImportError" || String.eqb cls "ModuleNotFoundError"
      || String.eqb cls "ZipImportError"
  | _ => false
  end.

(** The statements of the module, top to bottom: the guarded
    [from drone_mobile import Vehicle], whose outcome is [imported] (the
    class on success), and [if __name__ == "__main__": main()].  The bare
    [raise] of the handler raises the exception it caught again. *)
Definition module_body {client : Type} (imported : PyExc + VehicleAPI client)
    (name : string) (environ : gmap string string) : Py (list Event) unit :=
  api <-
    try_except
      (eval imported)
      is_ImportError
      (fun exc =>
         print_stderr
           ("Error: The 'drone_mobile' package is not installed. Did you forget to"
            ++ String "010" "install the dependency?") ;;;
         raise exc) ;;
  when (String.eqb name "__main__") (main api environ).

(** running the file, or importing it, under the interpreter *)
Definition run_module {client : Type} (imported : PyExc + VehicleAPI client)
    (name : string) (environ : gmap string string) : Outcome :=
  match module_body imported name environ [] with
  | (inr _, log) => {| trace := log; status := Exit 0 |}
  | (inl (SystemExit_ code), log) => {| trace := log; status := Exit code |}
  | (inl exc, log) => {| trace := log; status := Traceback exc |}
  end.

(** a record with two candidate fields and one other, in two orders *)
Definition van_record : PyDict :=
  [("name", VStr "Van"); ("device_id", VInt 7); ("deviceKey", VStr "k-1")].

Definition van_record_reordered : PyDict :=
  [("deviceKey", VStr "k-1"); ("device_id", VInt 7); ("name", VStr "Van")].






(** ** Auxiliary definitions for the proofs *)

(** induction on values that reaches the items of lists and dictionaries *)
Section PyValue_induction.
Variable P : PyValue -> Prop.
Hypothesis HNone : P VNone.
Hypothesis HBool : forall b, P (VBool b).
Hypothesis HInt : forall n, P (VInt n).
Hypothesis HStr : forall s, P (VStr s).
Hypothesis HList : forall items, Forall P items -> P (VList items).
Hypothesis HDict :
  forall items, Forall (fun kv => P (snd kv)) items -> P (VDict items).
Hypothesis HObject : forall cls truth, P (VObject cls truth).

End PyValue_induction.



(** What the loop computes, read off one candidate at a time. *)
Fixpoint first_usable (keys : list string) (d : PyDict) : option PyValue :=
  match keys with
  | [] => None
  | key :: rest =>
      match dict_lookup key d with
      | Some v => if py_bool v then Some v else first_usable rest d
      | None => first_usable rest d
      end
  end.











(** unfold the runner down to the client's answers *)
Ltac run_main :=
  unfold run_script, main, when, try_except, bind, Vehicle, auth,
    getAllVehicles, start, emit, eval, print_stderr, print, sys_exit, raise,
    ret, getitem0.

(** split a goal about [run_script api environ] along every branch of
    [main]; the client's answers land in hypotheses HV, HA, HL, HS, the
    key lookup in HK, the encoding in HJ *)
Ltac main_cases api :=
  run_main;
  destruct (py_not _ || py_not _) eqn:Hcred; cbn;
  [ |
    destruct (api_Vehicle api _ _) as [exc|c0] eqn:HV; cbn;
    [ destruct (is_Exception exc) eqn:Hexc; cbn
    | destruct (api_auth api c0) as [exc|c1] eqn:HA; cbn;
      [ destruct (is_Exception exc) eqn:Hexc; cbn
      | destruct (api_getAllVehicles api c1) as [exc|[listed c2]] eqn:HL; cbn;
        [ destruct (is_Exception exc) eqn:Hexc; cbn
        | destruct (or_empty listed) as [|first_vehicle others] eqn:Hlisted;
          cbn;
          [ |
            destruct (call_get_device_key first_vehicle)
              as [exc|device_key] eqn:HK; cbn;
            [ destruct (is_KeyError exc) eqn:Hexc; cbn
            | destruct (api_start api c2 device_key)
                as [exc|response] eqn:HS; cbn;
              [ destruct (is_Exception exc) eqn:Hexc; cbn
              | destruct (json_dumps response 2) as [exc|text] eqn:HJ;
                cbn ] ] ] ] ] ] ].

(** * Properties of [get_device_key] *)

Lemma get_device_key_loop_run (keys : list string) (d : PyDict) :
  get_device_key_loop keys d = (inr (first_usable keys d), d).
Proof.
  induction keys as [|key rest IH]; [reflexivity|].
  cbn [get_device_key_loop first_usable].
  unfold bind, dict_contains, dict_getitem, ret.
  destruct (dict_lookup key d) as [v|] eqn:E; cbn.
  - rewrite E. destruct (py_bool v); [now rewrite E | apply IH].
  - apply IH.
Qed.

Lemma get_device_key_run (d : PyDict) :
  get_device_key d =
  match first_usable CANDIDATE_KEYS d with
  | Some v => (inr v, d)
  | None =>
      (inl (KeyError_ ("Device key not found in vehicle info: "
                       ++ py_str_list (dict_keys d))), d)
  end.
Proof.
  unfold get_device_key, bind. rewrite get_device_key_loop_run.
  destruct (first_usable CANDIDATE_KEYS d); reflexivity.
Qed.

Lemma first_usable_app (pre post : list string) (d : PyDict) :
  (forall k, In k pre ->
     forall v, dict_lookup k d = Some v -> py_bool v = false) ->
  first_usable (pre ++ post) d = first_usable post d.
Proof.
  induction pre as [|k pre IH]; intros Hpre; [reflexivity|].
  cbn [app first_usable].
  destruct (dict_lookup k d) as [v|] eqn:E.
  - rewrite (Hpre k (or_introl eq_refl) v E).
    apply IH. intros k' Hk'. apply Hpre. now right.
  - apply IH. intros k' Hk'. apply Hpre. now right.
Qed.

Lemma first_usable_hit (pre post : list string) (k : string) (d : PyDict)
    (v : PyValue) :
  (forall k', In k' pre ->
     forall v', dict_lookup k' d = Some v' -> py_bool v' = false) ->
  dict_lookup k d = Some v -> py_bool v = true ->
  first_usable (pre ++ k :: post) d = Some v.
Proof.
  intros Hpre Hk Hv. rewrite first_usable_app by exact Hpre.
  cbn [first_usable]. now rewrite Hk, Hv.
Qed.

Lemma first_usable_None (keys : list string) (d : PyDict) :
  first_usable keys d = None <->
  (forall k v, In k keys -> dict_lookup k d = Some v -> py_bool v = false).
Proof.
  induction keys as [|key rest IH]; cbn [first_usable].
  - split; [intros _ k v [] | reflexivity].
  - destruct (dict_lookup key d) as [v|] eqn:E.
    + destruct (py_bool v) eqn:B.
      * split; [discriminate|]. intros H.
        specialize (H key v (or_introl eq_refl) E). congruence.
      * rewrite IH. split.
        -- intros H k v' [<-|Hin] Hl; [congruence | eauto].
        -- intros H k v' Hin. apply H. now right.
    + rewrite IH. split.
      * intros H k v' [<-|Hin] Hl; [congruence | eauto].
      * intros H k v' Hin. apply H. now right.
Qed.

Lemma first_usable_Some (keys : list string) (d : PyDict) (v : PyValue) :
  first_usable keys d = Some v ->
  exists k, In k keys /\ dict_lookup k d = Some v /\ py_bool v = true.
Proof.
  induction keys as [|key rest IH]; cbn [first_usable]; [discriminate|].
  destruct (dict_lookup key d) as [v'|] eqn:E.
  - destruct (py_bool v') eqn:B.
    + intros [= <-]. exists key. repeat split; [now left | exact E | exact B].
    + intros H. destruct (IH H) as (k & Hin & Hk). exists k. split; [now right | exact Hk].
  - intros H. destruct (IH H) as (k & Hin & Hk). exists k. split; [now right | exact Hk].
Qed.

Lemma dict_keys_present (d : PyDict) (k : string) :
  In k (dict_keys d) <-> is_Some (dict_lookup k d).
Proof.
  unfold dict_keys. induction d as [|[k' v] d IH]; cbn.
  - split; [intros [] | intros [x Hx]; discriminate].
  - destruct (String.eqb_spec k k') as [->|Hne].
    + split; [intros _; eexists; reflexivity | intros _; now left].
    + rewrite <- IH. split; [intros [Heq|H]; [congruence | exact H] | intros H; now right].
Qed.

Lemma get_device_key_raises_or_returns (d : PyDict) :
  match call_get_device_key d with
  | inl exc => exists msg, exc = KeyError_ msg
  | inr _ => True
  end.
Proof.
  unfold call_get_device_key. rewrite get_device_key_run.
  destruct (first_usable CANDIDATE_KEYS d); cbn; [exact I | eauto].
Qed.

(** a returned value is the one stored under some candidate key *)
Lemma get_device_key_returns_stored (d : PyDict) (v : PyValue) :
  call_get_device_key d = inr v ->
  exists k,
    In k CANDIDATE_KEYS /\ dict_lookup k d = Some v /\ py_bool v = true.
Proof.
  unfold call_get_device_key. rewrite get_device_key_run.
  destruct (first_usable CANDIDATE_KEYS d) as [v'|] eqn:E;
    cbn [fst]; [|discriminate].
  intros [= <-]. exact (first_usable_Some _ _ _ E).
Qed.

(** C1. The candidates are probed in the order device_key, deviceKey,
    deviceID, device_id: whenever a candidate [k] is present with a truthy
    value [v] and every candidate before it is absent or holds a falsy
    value, the call returns [v], whatever the candidates after [k] hold. *)
Theorem get_device_key_first_usable (d : PyDict) (pre post : list string)
    (k : string) (v : PyValue) :
  ["device_key"; "deviceKey"; "deviceID"; "device_id"] = (pre ++ k :: post)%list ->
  (forall k', In k' pre ->
     forall v', dict_lookup k' d = Some v' -> py_bool v' = false) ->
  dict_lookup k d = Some v ->
  py_bool v = true ->
  call_get_device_key d = inr v.
Proof.
  intros Hsplit Hpre Hk Hv. unfold call_get_device_key.
  rewrite get_device_key_run. unfold CANDIDATE_KEYS. rewrite Hsplit.
  now rewrite (first_usable_hit pre post k d v Hpre Hk Hv).
Qed.

Lemma get_device_key_first_usable_witness :
  call_get_device_key
    [("name", VStr "Car"); ("device_id", VStr "later"); ("deviceID", VInt 5);
     ("deviceKey", VStr ""); ("device_key", VNone)]
  = inr (VInt 5).
Proof.
  apply (get_device_key_first_usable _ ["device_key"; "deviceKey"]
           ["device_id"] "deviceID").
  - reflexivity.
  - intros k' [<-|[<-|[]]] v' [= <-]; reflexivity.
  - reflexivity.
  - reflexivity.
Defined.

(** C2. The call raises exactly when no candidate key is present with a
    truthy value.  What it raises is then a KeyError whose message is the
    fixed text followed by the list of the record's keys, and a key is in
    that list exactly when it is present on the record. *)
Theorem get_device_key_raises_iff_no_candidate (d : PyDict) :
  ((forall k v, In k ["device_key"; "deviceKey"; "deviceID"; "device_id"] ->
      dict_lookup k d = Some v -> py_bool v = false) ->
   call_get_device_key d =
   inl (KeyError_ ("Device key not found in vehicle info: "
                   ++ py_str_list (dict_keys d))))
  /\ (forall exc, call_get_device_key d = inl exc ->
        exc = KeyError_ ("Device key not found in vehicle info: "
                         ++ py_str_list (dict_keys d))
        /\ forall k v, In k ["device_key"; "deviceKey"; "deviceID"; "device_id"] ->
             dict_lookup k d = Some v -> py_bool v = false)
  /\ (forall k, In k (dict_keys d) <-> is_Some (dict_lookup k d)).
Proof.
  unfold call_get_device_key. rewrite get_device_key_run.
  change ["device_key"; "deviceKey"; "deviceID"; "device_id"] with CANDIDATE_KEYS.
  split; [|split].
  - intros Hnone. apply first_usable_None in Hnone. now rewrite Hnone.
  - intros exc. destruct (first_usable CANDIDATE_KEYS d) eqn:E; cbn.
    + discriminate.
    + intros [= <-]. split; [reflexivity|]. apply (proj1 (first_usable_None _ _) E).
  - apply dict_keys_present.
Qed.

Lemma get_device_key_raises_iff_no_candidate_witness :
  call_get_device_key [("name", VStr "Car"); ("deviceKey", VStr "")]
  = inl (KeyError_ "Device key not found in vehicle info: ['name', 'deviceKey']").
Proof.
  apply (proj1 (get_device_key_raises_iff_no_candidate
                  [("name", VStr "Car"); ("deviceKey", VStr "")])).
  intros k v [<-|[<-|[<-|[<-|[]]]]] [= <-]; reflexivity.
Defined.

(** C9. The value handed back is the stored one, not a string made from
    it: when the first usable candidate holds a truthy value that is not a
    str, the call returns that value, and so returns no str at all. *)
Theorem get_device_key_no_conversion (d : PyDict) (pre post : list string)
    (k : string) (v : PyValue) :
  ["device_key"; "deviceKey"; "deviceID"; "device_id"] = (pre ++ k :: post)%list ->
  (forall k', In k' pre ->
     forall v', dict_lookup k' d = Some v' -> py_bool v' = false) ->
  dict_lookup k d = Some v ->
  py_bool v = true ->
  (forall s, v <> VStr s) ->
  call_get_device_key d = inr v
  /\ forall s, call_get_device_key d <> inr (VStr s).
Proof.
  intros Hsplit Hpre Hk Hv Hstr.
  assert (Hcall : call_get_device_key d = inr v).
  { unfold call_get_device_key. rewrite get_device_key_run.
    unfold CANDIDATE_KEYS. rewrite Hsplit.
    now rewrite (first_usable_hit pre post k d v Hpre Hk Hv). }
  split; [exact Hcall|].
  intros s. rewrite Hcall. intros [= Heq]. exact (Hstr s Heq).
Qed.

Lemma get_device_key_no_conversion_witness :
  call_get_device_key [("name", VStr "Car"); ("deviceID", VInt 42)]
  = inr (VInt 42)
  /\ forall s,
       call_get_device_key [("name", VStr "Car"); ("deviceID", VInt 42)]
       <> inr (VStr s).
Proof.
  apply (get_device_key_no_conversion _ ["device_key"; "deviceKey"]
           ["device_id"] "deviceID").
  - reflexivity.
  - intros k' [<-|[<-|[]]] v' [=].
  - reflexivity.
  - reflexivity.
  - intros s [=].
Defined.

(** C10. The record the function was handed is the same after the call as
    before it; the statement is unconditional, so it covers the call that
    returns and the call that raises. *)
Theorem get_device_key_frame (d : PyDict) :
  snd (get_device_key d) = d.
Proof.
  rewrite get_device_key_run.
  destruct (first_usable CANDIDATE_KEYS d); reflexivity.
Qed.

(** * The encoder *)





(** * The encoder loses nothing *)

























(** * Properties of the runner *)

Lemma os_environ_get_Some (environ : gmap string string) (name s : string) :
  environ !! name = Some s -> os_environ_get environ name = VStr s.
Proof. unfold os_environ_get. now intros ->. Qed.

Lemma py_not_str_nonempty (s : string) : s <> "" -> py_not (VStr s) = false.
Proof.
  intros Hne. unfold py_not. cbn.
  destruct (String.eqb_spec s ""); [contradiction | reflexivity].
Qed.

Lemma py_not_environ_cases (environ : gmap string string) (name : string) :
  py_not (os_environ_get environ name) = true <->
  (environ !! name = None \/ environ !! name = Some "").
Proof.
  unfold os_environ_get, py_not.
  destruct (environ !! name) as [s|]; cbn.
  - destruct (String.eqb_spec s "") as [->|Hne]; cbn.
    + split; [now right | reflexivity].
    + split; [discriminate | intros [H|[= H]]; [discriminate | contradiction]].
  - split; [now left | reflexivity].
Qed.

(** C6. If either credential variable is unset or empty, the run consists
    of one line on stderr, containing "must be set as environment
    variables", and exit code 1: there is no call on the client at all. *)
Theorem main_missing_credentials {client : Type} (api : VehicleAPI client)
    (environ : gmap string string) :
  (environ !! "DRONEMOBILE_USERNAME" = None
   \/ environ !! "DRONEMOBILE_USERNAME" = Some ""
   \/ environ !! "DRONEMOBILE_PASSWORD" = None
   \/ environ !! "DRONEMOBILE_PASSWORD" = Some "") ->
  run_script api environ =
  {| trace :=
       [PrintStderr ("Error: Both DRONEMOBILE_USERNAME and DRONEMOBILE_PASSWORD "
                     ++ "must be set as environment variables" ++ ".")];
     status := Exit 1 |}
  /\ calls_of (trace (run_script api environ)) = [].
Proof.
  intros H.
  assert (Hcond : py_not (os_environ_get environ "DRONEMOBILE_USERNAME")
                  || py_not (os_environ_get environ "DRONEMOBILE_PASSWORD")
                  = true).
  { apply orb_true_iff. rewrite !py_not_environ_cases. tauto. }
  run_main. rewrite Hcond. split; reflexivity.
Qed.

Lemma main_missing_credentials_witness :
  run_script (fake_api (inr tt) (inr tt) (inr None) (inr VNone))
    (<["DRONEMOBILE_USERNAME" := "me@example.org"]> ∅) =
  {| trace :=
       [PrintStderr "Error: Both DRONEMOBILE_USERNAME and DRONEMOBILE_PASSWORD must be set as environment variables."];
     status := Exit 1 |}
  /\ calls_of
       (trace
          (run_script (fake_api (inr tt) (inr tt) (inr None) (inr VNone))
             (<["DRONEMOBILE_USERNAME" := "me@example.org"]> ∅))) = [].
Proof.
  apply (main_missing_credentials
           (fake_api (inr tt) (inr tt) (inr None) (inr VNone))
           (<["DRONEMOBILE_USERNAME" := "me@example.org"]> ∅)).
  right. right. left. reflexivity.
Defined.

Section WithCredentials.
Context {client : Type}.
Variable api : VehicleAPI client.
Variable environ : gmap string string.
Variables u p : string.
Hypothesis Hu : environ !! "DRONEMOBILE_USERNAME" = Some u.
Hypothesis Hu_nonempty : u <> "".
Hypothesis Hp : environ !! "DRONEMOBILE_PASSWORD" = Some p.
Hypothesis Hp_nonempty : p <> "".

(** past the credential check, the run is the rest of [main] *)
Lemma credentials_pass :
  py_not (os_environ_get environ "DRONEMOBILE_USERNAME")
  || py_not (os_environ_get environ "DRONEMOBILE_PASSWORD") = false.
Proof.
  rewrite (os_environ_get_Some _ _ _ Hu), (os_environ_get_Some _ _ _ Hp).
  now rewrite !py_not_str_nonempty.
Qed.

Lemma run_Vehicle_raises (exc : PyExc) :
  api_Vehicle api (VStr u) (VStr p) = inl exc ->
  is_Exception exc = true ->
  run_script api environ =
  {| trace :=
       [CallVehicle (VStr u) (VStr p);
        PrintStderr ("Error during authentication or vehicle retrieval: "
                     ++ py_str_exc exc)];
     status := Exit 1 |}.
Proof.
  intros HV Hexc. run_main. rewrite credentials_pass.
  rewrite (os_environ_get_Some _ _ _ Hu), (os_environ_get_Some _ _ _ Hp).
  cbn. rewrite HV, Hexc. reflexivity.
Qed.

Lemma run_auth_raises (c0 : client) (exc : PyExc) :
  api_Vehicle api (VStr u) (VStr p) = inr c0 ->
  api_auth api c0 = inl exc ->
  is_Exception exc = true ->
  run_script api environ =
  {| trace :=
       [CallVehicle (VStr u) (VStr p); CallAuth;
        PrintStderr ("Error during authentication or vehicle retrieval: "
                     ++ py_str_exc exc)];
     status := Exit 1 |}.
Proof.
  intros HV HA Hexc. run_main. rewrite credentials_pass.
  rewrite (os_environ_get_Some _ _ _ Hu), (os_environ_get_Some _ _ _ Hp).
  cbn. rewrite HV. cbn. rewrite HA, Hexc. reflexivity.
Qed.

Lemma run_listing_raises (c0 c1 : client) (exc : PyExc) :
  api_Vehicle api (VStr u) (VStr p) = inr c0 ->
  api_auth api c0 = inr c1 ->
  api_getAllVehicles api c1 = inl exc ->
  is_Exception exc = true ->
  run_script api environ =
  {| trace :=
       [CallVehicle (VStr u) (VStr p); CallAuth; CallGetAllVehicles;
        PrintStderr ("Error during authentication or vehicle retrieval: "
                     ++ py_str_exc exc)];
     status := Exit 1 |}.
Proof.
  intros HV HA HL Hexc. run_main. rewrite credentials_pass.
  rewrite (os_environ_get_Some _ _ _ Hu), (os_environ_get_Some _ _ _ Hp).
  cbn. rewrite HV. cbn. rewrite HA. cbn. rewrite HL, Hexc. reflexivity.
Qed.

(** the run once the listing has come back *)
Lemma run_listed (c0 c1 c2 : client) (listed : option (list PyDict)) :
  api_Vehicle api (VStr u) (VStr p) = inr c0 ->
  api_auth api c0 = inr c1 ->
  api_getAllVehicles api c1 = inr (listed, c2) ->
  run_script api environ =
  match or_empty listed with
  | [] =>
      {| trace :=
           [CallVehicle (VStr u) (VStr p); CallAuth; CallGetAllVehicles;
            PrintStderr "Error: No vehicles were found on your DroneMobile account."];
         status := Exit 1 |}
  | first_vehicle :: _ =>
      match call_get_device_key first_vehicle with
      | inl exc =>
          {| trace :=
               [CallVehicle (VStr u) (VStr p); CallAuth; CallGetAllVehicles;
                PrintStderr ("Error extracting device key: "
                             ++ py_str_exc exc)];
             status := Exit 1 |}
      | inr device_key =>
          match api_start api c2 device_key with
          | inl exc =>
              if is_Exception exc then
                {| trace :=
                     [CallVehicle (VStr u) (VStr p); CallAuth;
                      CallGetAllVehicles; CallStart device_key;
                      PrintStderr ("Error issuing remote start command: "
                                   ++ py_str_exc exc)];
                   status := Exit 1 |}
              else
                {| trace :=
                     [CallVehicle (VStr u) (VStr p); CallAuth;
                      CallGetAllVehicles; CallStart device_key];
                   status := match exc with
                             | SystemExit_ code => Exit code
                             | _ => Traceback exc
                             end |}
          | inr response =>
              match json_dumps response 2 with
              | inl exc =>
                  {| trace :=
                       [CallVehicle (VStr u) (VStr p); CallAuth;
                        CallGetAllVehicles; CallStart device_key];
                     status := match exc with
                               | SystemExit_ code => Exit code
                               | _ => Traceback exc
                               end |}
              | inr text =>
                  {| trace :=
                       [CallVehicle (VStr u) (VStr p); CallAuth;
                        CallGetAllVehicles; CallStart device_key;
                        PrintStdout text];
                     status := Exit 0 |}
              end
          end
      end
  end.
Proof.
  intros HV HA HL. run_main. rewrite credentials_pass.
  rewrite (os_environ_get_Some _ _ _ Hu), (os_environ_get_Some _ _ _ Hp).
  cbn. rewrite HV. cbn. rewrite HA. cbn. rewrite HL. cbn.
  destruct (or_empty listed) as [|first_vehicle others]; cbn; [reflexivity|].
  pose proof (get_device_key_raises_or_returns first_vehicle) as Hk.
  destruct (call_get_device_key first_vehicle) as [exc|device_key]; cbn.
  - destruct Hk as [msg ->]. reflexivity.
  - destruct (api_start api c2 device_key) as [exc|response]; cbn.
    + destruct exc; reflexivity.
    + destruct (json_dumps response 2) as [exc|text]; cbn;
        [destruct exc|]; reflexivity.
Qed.

End WithCredentials.

(** C3 as amended. With both credentials set, if building the client, the
    authentication or the listing raises an instance of Exception, the run
    is the calls made so far, then one stderr line made of "Error during
    authentication or vehicle retrieval: " and str(exc), then exit code 1. *)
Theorem main_auth_or_listing_raises {client : Type} (api : VehicleAPI client)
    (environ : gmap string string) (u p : string) (exc : PyExc)
    (calls : list Event) :
  environ !! "DRONEMOBILE_USERNAME" = Some u -> u <> "" ->
  environ !! "DRONEMOBILE_PASSWORD" = Some p -> p <> "" ->
  is_Exception exc = true ->
  (api_Vehicle api (VStr u) (VStr p) = inl exc
   /\ calls = [CallVehicle (VStr u) (VStr p)])
  \/ (exists c0,
        api_Vehicle api (VStr u) (VStr p) = inr c0
        /\ api_auth api c0 = inl exc
        /\ calls = [CallVehicle (VStr u) (VStr p); CallAuth])
  \/ (exists c0 c1,
        api_Vehicle api (VStr u) (VStr p) = inr c0
        /\ api_auth api c0 = inr c1
        /\ api_getAllVehicles api c1 = inl exc
        /\ calls = [CallVehicle (VStr u) (VStr p); CallAuth;
                    CallGetAllVehicles]) ->
  run_script api environ =
  {| trace :=
       (calls ++ [PrintStderr
                    ("Error during authentication or vehicle retrieval: "
                     ++ py_str_exc exc)])%list;
     status := Exit 1 |}.
Proof.
  intros Hu Hu' Hp Hp' Hexc
    [[HV ->] | [(c0 & HV & HA & ->) | (c0 & c1 & HV & HA & HL & ->)]].
  - now apply run_Vehicle_raises.
  - now apply run_auth_raises with c0.
  - now apply run_listing_raises with c0 c1.
Qed.

Lemma main_auth_or_listing_raises_witness :
  run_script
    (fake_api (inr tt) (inl (Exception_ "HTTPError" "401 Client Error"))
       good_listing (inr ok_response))
    good_environ =
  {| trace :=
       [CallVehicle (VStr "me@example.org") (VStr "hunter2"); CallAuth;
        PrintStderr "Error during authentication or vehicle retrieval: 401 Client Error"];
     status := Exit 1 |}.
Proof.
  apply (main_auth_or_listing_raises
           (fake_api (inr tt) (inl (Exception_ "HTTPError" "401 Client Error"))
              good_listing (inr ok_response))
           good_environ "me@example.org" "hunter2"
           (Exception_ "HTTPError" "401 Client Error")
           [CallVehicle (VStr "me@example.org") (VStr "hunter2"); CallAuth]).
  - reflexivity.
  - discriminate.
  - reflexivity.
  - discriminate.
  - reflexivity.
  - right. left. exists tt. repeat split; reflexivity.
Defined.

(** C3 as stated fails: an interrupt raised inside the authentication call
    is not an instance of Exception, so the handler does not take it; the
    script prints nothing and the interrupt reaches the top level. *)
Lemma main_auth_interrupt_not_reported :
  api_auth interrupted_auth_api tt = inl (BaseException_ "KeyboardInterrupt" "")
  /\ run_script interrupted_auth_api good_environ <>
     {| trace :=
          [CallVehicle (VStr "me@example.org") (VStr "hunter2"); CallAuth;
           PrintStderr
             ("Error during authentication or vehicle retrieval: "
              ++ py_str_exc (BaseException_ "KeyboardInterrupt" ""))];
        status := Exit 1 |}
  /\ stderr_of (trace (run_script interrupted_auth_api good_environ)) = []
  /\ status (run_script interrupted_auth_api good_environ) =
     Traceback (BaseException_ "KeyboardInterrupt" "").
Proof.
  split; [reflexivity|]. split; [|split].
  - vm_compute. discriminate.
  - vm_compute. reflexivity.
  - vm_compute. reflexivity.
Qed.

(** C4. With both credentials set and the client built and authenticated,
    a listing that comes back as None gives the same run as one that comes
    back as the empty list: one stderr line containing "No vehicles were
    found", exit code 1, and no start command. *)
Theorem main_no_vehicles {client : Type} (api : VehicleAPI client)
    (environ : gmap string string) (u p : string) (c0 c1 c2 : client)
    (listed : option (list PyDict)) :
  environ !! "DRONEMOBILE_USERNAME" = Some u -> u <> "" ->
  environ !! "DRONEMOBILE_PASSWORD" = Some p -> p <> "" ->
  api_Vehicle api (VStr u) (VStr p) = inr c0 ->
  api_auth api c0 = inr c1 ->
  api_getAllVehicles api c1 = inr (listed, c2) ->
  listed = None \/ listed = Some [] ->
  run_script api environ =
  {| trace :=
       [CallVehicle (VStr u) (VStr p); CallAuth; CallGetAllVehicles;
        PrintStderr ("Error: " ++ "No vehicles were found"
                     ++ " on your DroneMobile account.")];
     status := Exit 1 |}.
Proof.
  intros Hu Hu' Hp Hp' HV HA HL Hempty.
  rewrite (run_listed api environ u p Hu Hu' Hp Hp' c0 c1 c2 listed HV HA HL).
  destruct Hempty as [-> | ->]; reflexivity.
Qed.

Lemma main_no_vehicles_witness :
  run_script (fake_api (inr tt) (inr tt) (inr None) (inr ok_response))
    good_environ =
  {| trace :=
       [CallVehicle (VStr "me@example.org") (VStr "hunter2"); CallAuth;
        CallGetAllVehicles;
        PrintStderr "Error: No vehicles were found on your DroneMobile account."];
     status := Exit 1 |}.
Proof.
  apply (main_no_vehicles
           (fake_api (inr tt) (inr tt) (inr None) (inr ok_response))
           good_environ "me@example.org" "hunter2" tt tt tt None).
  - reflexivity.
  - discriminate.
  - reflexivity.
  - discriminate.
  - reflexivity.
  - reflexivity.
  - reflexivity.
  - left. reflexivity.
Defined.

Lemma or_empty_cons {A : Type} (l : option (list A)) (x : A) (xs : list A) :
  or_empty l = x :: xs -> l = Some (x :: xs).
Proof. destruct l as [[|y ys]|]; cbn; [discriminate | congruence | discriminate]. Qed.


(** every start command is issued with the key taken from the first record
    of the listed sequence *)
Lemma run_script_start_call {client : Type} (api : VehicleAPI client)
    (environ : gmap string string) (k : PyValue) :
  In (CallStart k) (trace (run_script api environ)) ->
  exists c c' first_vehicle others,
    api_getAllVehicles api c = inr (Some (first_vehicle :: others), c')
    /\ call_get_device_key first_vehicle = inr k.
Proof.
  main_cases api; try (destruct exc; cbn); intros Hin;
    repeat (destruct Hin as [Hin|Hin]; [try discriminate Hin|]);
    try contradiction;
    injection Hin as <-; exists c1, c2, first_vehicle, others;
    (split; [|exact HK]);
    rewrite HL; now rewrite (or_empty_cons _ _ _ Hlisted).
Qed.

(** the run does not change when the records after the first one do *)
Lemma run_script_with_listing {client : Type} (api : VehicleAPI client)
    (environ : gmap string string)
    (f : option (list PyDict) -> option (list PyDict)) :
  (forall l,
     f l = l
     \/ exists v rest rest',
          l = Some (v :: rest) /\ f l = Some (v :: rest')) ->
  run_script (with_listing f api) environ = run_script api environ.
Proof.
  intros Hf. run_main.
  destruct (py_not _ || py_not _); cbn; [reflexivity|].
  destruct (api_Vehicle api _ _) as [exc|c0]; cbn; [reflexivity|].
  destruct (api_auth api c0) as [exc|c1]; cbn; [reflexivity|].
  destruct (api_getAllVehicles api c1) as [exc|[listed c2]]; cbn;
    [reflexivity|].
  destruct (Hf listed) as [-> | (v & rest & rest' & -> & ->)]; reflexivity.
Qed.

(** the serialization of scenario C, spelled out character by character *)
Example json_dumps_ok_response :
  json_dumps ok_response 2 =
  inr ("{" ++ String "010" "  " ++ String "034" "status" ++ String "034" ": "
       ++ String "034" "ok" ++ String "034" "" ++ String "010" "}").
Proof. reflexivity. Qed.

(** scenario D: a record without any device-key field *)
Example run_script_no_device_key :
  run_script
    (fake_api (inr tt) (inr tt) (inr (Some [[("name", VStr "Car")]]))
       (inr ok_response))
    good_environ =
  {| trace :=
       [CallVehicle (VStr "me@example.org") (VStr "hunter2"); CallAuth;
        CallGetAllVehicles;
        PrintStderr
          ("Error extracting device key: "
           ++ String "034" "Device key not found in vehicle info: ['name']"
           ++ String "034" "")];
     status := Exit 1 |}.
Proof. reflexivity. Qed.




(** C7. In a run whose listing is a non-empty sequence, the first record
    and no other is acted upon: if it yields a device key, the client is
    called exactly four times, the last call being the start command with
    that key; if it yields none, the run ends on the device-key error of
    that record; a start command with any other key does not occur; and
    replacing the records after the first by any others leaves the whole
    run as it was. *)
Theorem main_first_vehicle_only {client : Type} (api : VehicleAPI client)
    (environ : gmap string string) (u p : string) (c0 c1 c2 : client)
    (first_vehicle : PyDict) (others : list PyDict) :
  environ !! "DRONEMOBILE_USERNAME" = Some u -> u <> "" ->
  environ !! "DRONEMOBILE_PASSWORD" = Some p -> p <> "" ->
  api_Vehicle api (VStr u) (VStr p) = inr c0 ->
  api_auth api c0 = inr c1 ->
  api_getAllVehicles api c1 = inr (Some (first_vehicle :: others), c2) ->
  (forall k,
     call_get_device_key first_vehicle = inr k ->
     calls_of (trace (run_script api environ)) =
     [CallVehicle (VStr u) (VStr p); CallAuth; CallGetAllVehicles;
      CallStart k])
  /\ (forall exc,
        call_get_device_key first_vehicle = inl exc ->
        run_script api environ =
        {| trace :=
             [CallVehicle (VStr u) (VStr p); CallAuth; CallGetAllVehicles;
              PrintStderr ("Error extracting device key: "
                           ++ py_str_exc exc)];
           status := Exit 1 |})
  /\ (forall k,
        In (CallStart k) (trace (run_script api environ)) ->
        call_get_device_key first_vehicle = inr k)
  /\ (forall f : option (list PyDict) -> option (list PyDict),
        (forall l,
           f l = l
           \/ exists v rest rest',
                l = Some (v :: rest) /\ f l = Some (v :: rest')) ->
        run_script (with_listing f api) environ = run_script api environ).
Proof.
  intros Hu Hu' Hp Hp' HV HA HL.
  pose proof (run_listed api environ u p Hu Hu' Hp Hp' c0 c1 c2 _ HV HA HL)
    as Hrun.
  cbn [or_empty seq_bool] in Hrun.
  split; [|split; [|split]].
  - intros k HK. rewrite Hrun, HK.
    destruct (api_start api c2 k) as [exc|response].
    + destruct (is_Exception exc); reflexivity.
    + destruct (json_dumps response 2); reflexivity.
  - intros exc HK. rewrite Hrun, HK. reflexivity.
  - intros k. rewrite Hrun.
    destruct (call_get_device_key first_vehicle) as [exc|device_key].
    + cbn. intros [[=]|[[=]|[[=]|[[=]|[]]]]].
    + intros Hin. f_equal.
      destruct (api_start api c2 device_key) as [exc|response].
      * destruct (is_Exception exc); cbn in Hin;
          repeat (destruct Hin as [Hin|Hin]; [try discriminate Hin|]);
          try contradiction; now injection Hin.
      * destruct (json_dumps response 2); cbn in Hin;
          repeat (destruct Hin as [Hin|Hin]; [try discriminate Hin|]);
          try contradiction; now injection Hin.
  - intros f Hf. now apply run_script_with_listing.
Qed.

Lemma main_first_vehicle_only_witness :
  calls_of
    (trace
       (run_script (fake_api (inr tt) (inr tt) good_listing (inr ok_response))
          good_environ)) =
  [CallVehicle (VStr "me@example.org") (VStr "hunter2"); CallAuth;
   CallGetAllVehicles; CallStart (VStr "abc123")].
Proof.
  apply (proj1 (main_first_vehicle_only
                  (fake_api (inr tt) (inr tt) good_listing (inr ok_response))
                  good_environ "me@example.org" "hunter2" tt tt tt
                  [("deviceKey", VStr "abc123"); ("name", VStr "Car")]
                  [[("device_key", VStr "second"); ("name", VStr "Van")]]
                  eq_refl ltac:(discriminate) eq_refl ltac:(discriminate)
                  eq_refl eq_refl eq_refl)).
  reflexivity.
Defined.

(** C8 as amended. When the first record yields a device key and the start
    command raises an instance of Exception, the run ends with one stderr
    line made of "Error issuing remote start command: " and str(exc), and
    with exit code 1; nothing is written to stdout. *)
Theorem main_start_raises {client : Type} (api : VehicleAPI client)
    (environ : gmap string string) (u p : string) (c0 c1 c2 : client)
    (first_vehicle : PyDict) (others : list PyDict) (device_key : PyValue)
    (exc : PyExc) :
  environ !! "DRONEMOBILE_USERNAME" = Some u -> u <> "" ->
  environ !! "DRONEMOBILE_PASSWORD" = Some p -> p <> "" ->
  api_Vehicle api (VStr u) (VStr p) = inr c0 ->
  api_auth api c0 = inr c1 ->
  api_getAllVehicles api c1 = inr (Some (first_vehicle :: others), c2) ->
  call_get_device_key first_vehicle = inr device_key ->
  api_start api c2 device_key = inl exc ->
  is_Exception exc = true ->
  run_script api environ =
  {| trace :=
       [CallVehicle (VStr u) (VStr p); CallAuth; CallGetAllVehicles;
        CallStart device_key;
        PrintStderr ("Error issuing remote start command: "
                     ++ py_str_exc exc)];
     status := Exit 1 |}
  /\ stdout_of (trace (run_script api environ)) = [].
Proof.
  intros Hu Hu' Hp Hp' HV HA HL HK HS Hexc.
  rewrite (run_listed api environ u p Hu Hu' Hp Hp' c0 c1 c2 _ HV HA HL).
  cbn. rewrite HK, HS, Hexc. split; reflexivity.
Qed.

Lemma main_start_raises_witness :
  run_script
    (fake_api (inr tt) (inr tt) good_listing
       (inl (Exception_ "ConnectionError" "connection reset")))
    good_environ =
  {| trace :=
       [CallVehicle (VStr "me@example.org") (VStr "hunter2"); CallAuth;
        CallGetAllVehicles; CallStart (VStr "abc123");
        PrintStderr "Error issuing remote start command: connection reset"];
     status := Exit 1 |}
  /\ stdout_of
       (trace
          (run_script
             (fake_api (inr tt) (inr tt) good_listing
                (inl (Exception_ "ConnectionError" "connection reset")))
             good_environ)) = [].
Proof.
  apply (main_start_raises
           (fake_api (inr tt) (inr tt) good_listing
              (inl (Exception_ "ConnectionError" "connection reset")))
           good_environ "me@example.org" "hunter2" tt tt tt
           [("deviceKey", VStr "abc123"); ("name", VStr "Car")]
           [[("device_key", VStr "second"); ("name", VStr "Van")]]
           (VStr "abc123")
           (Exception_ "ConnectionError" "connection reset")).
  - reflexivity.
  - discriminate.
  - reflexivity.
  - discriminate.
  - reflexivity.
  - reflexivity.
  - reflexivity.
  - reflexivity.
  - reflexivity.
  - reflexivity.
Defined.

(** C8 as stated fails: an interrupt raised inside the start command is not
    an instance of Exception, so the handler does not take it; the script
    prints nothing and the interrupt reaches the top level. *)
Lemma main_start_interrupt_not_reported :
  call_get_device_key [("deviceKey", VStr "abc123"); ("name", VStr "Car")]
  = inr (VStr "abc123")
  /\ api_start interrupted_start_api tt (VStr "abc123")
     = inl (BaseException_ "KeyboardInterrupt" "")
  /\ run_script interrupted_start_api good_environ <>
     {| trace :=
          [CallVehicle (VStr "me@example.org") (VStr "hunter2"); CallAuth;
           CallGetAllVehicles; CallStart (VStr "abc123");
           PrintStderr
             ("Error issuing remote start command: "
              ++ py_str_exc (BaseException_ "KeyboardInterrupt" ""))];
        status := Exit 1 |}
  /\ stderr_of (trace (run_script interrupted_start_api good_environ)) = []
  /\ status (run_script interrupted_start_api good_environ) =
     Traceback (BaseException_ "KeyboardInterrupt" "").
Proof.
  split; [reflexivity|]. split; [reflexivity|]. split; [|split].
  - vm_compute. discriminate.
  - vm_compute. reflexivity.
  - vm_compute. reflexivity.
Qed.


(** * Further properties of [get_device_key] *)

Lemma first_usable_split (keys : list string) (d : PyDict) (v : PyValue) :
  first_usable keys d = Some v ->
  exists pre k post,
    keys = (pre ++ k :: post)%list
    /\ dict_lookup k d = Some v
    /\ py_bool v = true
    /\ forall k', In k' pre ->
         forall v', dict_lookup k' d = Some v' -> py_bool v' = false.
Proof.
  induction keys as [|key rest IH]; cbn [first_usable]; [discriminate|].
  destruct (dict_lookup key d) as [v0|] eqn:E.
  - destruct (py_bool v0) eqn:B.
    + intros [= <-]. exists [], key, rest.
      repeat split; [exact E | exact B | intros k' []].
    + intros H. destruct (IH H) as (pre & k & post & -> & Hk & Hv & Hpre).
      exists (key :: pre), k, post. repeat split; [exact Hk | exact Hv |].
      intros k' [<-|Hin] v' Hl; [congruence | eauto].
  - intros H. destruct (IH H) as (pre & k & post & -> & Hk & Hv & Hpre).
    exists (key :: pre), k, post. repeat split; [exact Hk | exact Hv |].
    intros k' [<-|Hin] v' Hl; [congruence | eauto].
Qed.

Lemma first_usable_ext (keys : list string) (d d' : PyDict) :
  (forall k, In k keys -> dict_lookup k d = dict_lookup k d') ->
  first_usable keys d = first_usable keys d'.
Proof.
  induction keys as [|key rest IH]; intros H; [reflexivity|].
  cbn [first_usable]. rewrite <- (H key (or_introl eq_refl)).
  rewrite IH; [reflexivity|]. intros k Hin. apply H. now right.
Qed.

(** X1. The converse of the priority rule: a value the call returns is
    truthy, is stored under one of the four candidate keys, and every
    candidate before that key is absent or holds a falsy value. *)
Theorem get_device_key_returned_value (d : PyDict) (v : PyValue) :
  call_get_device_key d = inr v ->
  exists pre k post,
    ["device_key"; "deviceKey"; "deviceID"; "device_id"]
    = (pre ++ k :: post)%list
    /\ dict_lookup k d = Some v
    /\ py_bool v = true
    /\ forall k', In k' pre ->
         forall v', dict_lookup k' d = Some v' -> py_bool v' = false.
Proof.
  unfold call_get_device_key. rewrite get_device_key_run.
  destruct (first_usable CANDIDATE_KEYS d) as [v0|] eqn:E;
    cbn [fst]; [|discriminate].
  intros [= <-]. exact (first_usable_split _ _ _ E).
Qed.

Lemma get_device_key_returned_value_witness :
  exists pre k post,
    ["device_key"; "deviceKey"; "deviceID"; "device_id"]
    = (pre ++ k :: post)%list
    /\ dict_lookup k van_record = Some (VStr "k-1")
    /\ py_bool (VStr "k-1") = true
    /\ forall k', In k' pre ->
         forall v', dict_lookup k' van_record = Some v' -> py_bool v' = false.
Proof.
  apply (get_device_key_returned_value van_record (VStr "k-1")).
  reflexivity.
Defined.

(** X2. The outcome depends on the record only through what it holds under
    the four candidate keys: two records that agree there both return the
    same value, or both raise. *)
Theorem get_device_key_candidates_only (d d' : PyDict) :
  (forall k, In k ["device_key"; "deviceKey"; "deviceID"; "device_id"] ->
     dict_lookup k d = dict_lookup k d') ->
  match call_get_device_key d, call_get_device_key d' with
  | inr v, inr v' => v = v'
  | inl _, inl _ => True
  | _, _ => False
  end.
Proof.
  intros H. unfold call_get_device_key. rewrite !get_device_key_run.
  rewrite (first_usable_ext CANDIDATE_KEYS d d' H).
  destruct (first_usable CANDIDATE_KEYS d'); cbn; [reflexivity | exact I].
Qed.

Lemma get_device_key_candidates_only_witness :
  match call_get_device_key van_record,
        call_get_device_key (("colour", VStr "red") :: van_record) with
  | inr v, inr v' => v = v'
  | inl _, inl _ => True
  | _, _ => False
  end.
Proof.
  apply (get_device_key_candidates_only
           van_record (("colour", VStr "red") :: van_record)).
  intros k [<-|[<-|[<-|[<-|[]]]]]; reflexivity.
Defined.

Lemma dict_lookup_In (d : PyDict) (k : string) (v : PyValue) :
  dict_lookup k d = Some v -> In (k, v) d.
Proof.
  induction d as [|[k0 v0] d IH]; cbn; [discriminate|].
  destruct (String.eqb_spec k k0) as [->|Hne].
  - intros [= ->]. now left.
  - intros H. right. now apply IH.
Qed.

Lemma dict_lookup_NoDup (d : PyDict) (k : string) (v : PyValue) :
  List.NoDup (dict_keys d) -> In (k, v) d -> dict_lookup k d = Some v.
Proof.
  unfold dict_keys.
  induction d as [|[k0 v0] d IH]; cbn; intros Hnd Hin; [contradiction|].
  apply List.NoDup_cons_iff in Hnd as [Hfresh Hnd].
  destruct (String.eqb_spec k k0) as [->|Hne].
  - destruct Hin as [[= ->]|Hin]; [reflexivity|].
    exfalso. apply Hfresh. now apply (in_map fst d (k0, v)).
  - destruct Hin as [[= Hk _]|Hin]; [congruence | now apply IH].
Qed.

Lemma dict_lookup_Permutation (d d' : PyDict) (k : string) :
  List.NoDup (dict_keys d) -> Permutation d d' ->
  dict_lookup k d = dict_lookup k d'.
Proof.
  intros Hnd Hperm.
  assert (Hnd' : List.NoDup (dict_keys d')).
  { unfold dict_keys in *.
    eapply Permutation_NoDup; [apply Permutation_map, Hperm | exact Hnd]. }
  destruct (dict_lookup k d) as [v|] eqn:E.
  - symmetry. apply dict_lookup_NoDup; [exact Hnd'|].
    eapply Permutation_in; [exact Hperm | now apply dict_lookup_In].
  - destruct (dict_lookup k d') as [v'|] eqn:E'; [|reflexivity].
    apply dict_lookup_In in E'.
    apply (Permutation_in _ (Permutation_sym Hperm)) in E'.
    apply (dict_lookup_NoDup d k v' Hnd) in E'. congruence.
Qed.

(** X3. The order of the fields on the record does not matter, only the
    order of the candidates: a record with distinct keys and any
    rearrangement of it both return the same value, or both raise. *)
Theorem get_device_key_field_order (d d' : PyDict) :
  List.NoDup (dict_keys d) ->
  Permutation d d' ->
  match call_get_device_key d, call_get_device_key d' with
  | inr v, inr v' => v = v'
  | inl _, inl _ => True
  | _, _ => False
  end.
Proof.
  intros Hnd Hperm. unfold call_get_device_key. rewrite !get_device_key_run.
  rewrite (first_usable_ext CANDIDATE_KEYS d d').
  - destruct (first_usable CANDIDATE_KEYS d'); cbn; [reflexivity | exact I].
  - intros k _. now apply dict_lookup_Permutation.
Qed.

Lemma get_device_key_field_order_witness :
  match call_get_device_key van_record,
        call_get_device_key van_record_reordered with
  | inr v, inr v' => v = v'
  | inl _, inl _ => True
  | _, _ => False
  end.
Proof.
  apply (get_device_key_field_order van_record van_record_reordered).
  - unfold van_record, dict_keys. cbn.
    repeat constructor; cbn; intros H;
      repeat (destruct H as [H|H]; [discriminate H|]); exact H.
  - unfold van_record, van_record_reordered.
    eapply perm_trans; [apply perm_swap|].
    eapply perm_trans; [apply perm_skip, perm_swap|].
    apply perm_swap.
Defined.

(** * Further properties of the runner *)

(** X4. When the client is built, authenticates and lists a non-empty
    sequence whose first record has no usable candidate key, the run ends
    with one stderr line, "Error extracting device key: " followed by the
    repr of the KeyError message (which lists the record's keys), and exit
    code 1; the start command is never issued. *)
Theorem main_device_key_missing {client : Type} (api : VehicleAPI client)
    (environ : gmap string string) (u p : string) (c0 c1 c2 : client)
    (first_vehicle : PyDict) (others : list PyDict) :
  environ !! "DRONEMOBILE_USERNAME" = Some u -> u <> "" ->
  environ !! "DRONEMOBILE_PASSWORD" = Some p -> p <> "" ->
  api_Vehicle api (VStr u) (VStr p) = inr c0 ->
  api_auth api c0 = inr c1 ->
  api_getAllVehicles api c1 = inr (Some (first_vehicle :: others), c2) ->
  (forall k v, In k ["device_key"; "deviceKey"; "deviceID"; "device_id"] ->
     dict_lookup k first_vehicle = Some v -> py_bool v = false) ->
  run_script api environ =
  {| trace :=
       [CallVehicle (VStr u) (VStr p); CallAuth; CallGetAllVehicles;
        PrintStderr
          ("Error extracting device key: "
           ++ py_repr_str ("Device key not found in vehicle info: "
                           ++ py_str_list (dict_keys first_vehicle)))];
     status := Exit 1 |}.
Proof.
  intros Hu Hu' Hp Hp' HV HA HL Hnone.
  rewrite (run_listed api environ u p Hu Hu' Hp Hp' c0 c1 c2 _ HV HA HL).
  cbn [or_empty seq_bool].
  unfold call_get_device_key. rewrite get_device_key_run.
  apply first_usable_None in Hnone. unfold CANDIDATE_KEYS.
  rewrite Hnone. reflexivity.
Qed.

Lemma main_device_key_missing_witness :
  run_script
    (fake_api (inr tt) (inr tt)
       (inr (Some [[("name", VStr "Car"); ("deviceKey", VStr "")]]))
       (inr ok_response))
    good_environ =
  {| trace :=
       [CallVehicle (VStr "me@example.org") (VStr "hunter2"); CallAuth;
        CallGetAllVehicles;
        PrintStderr
          ("Error extracting device key: "
           ++ py_repr_str ("Device key not found in vehicle info: "
                           ++ py_str_list ["name"; "deviceKey"]))];
     status := Exit 1 |}.
Proof.
  apply (main_device_key_missing
           (fake_api (inr tt) (inr tt)
              (inr (Some [[("name", VStr "Car"); ("deviceKey", VStr "")]]))
              (inr ok_response))
           good_environ "me@example.org" "hunter2" tt tt tt
           [("name", VStr "Car"); ("deviceKey", VStr "")] []).
  - reflexivity.
  - discriminate.
  - reflexivity.
  - discriminate.
  - reflexivity.
  - reflexivity.
  - reflexivity.
  - intros k v [<-|[<-|[<-|[<-|[]]]]] [= <-]; reflexivity.
Defined.

(** X5. Whatever the environment and the client do, a run makes at most
    one [print] call in total over stdout and stderr (the text of that one
    call may span several lines). *)
Theorem main_prints_at_most_once {client : Type} (api : VehicleAPI client)
    (environ : gmap string string) :
  (length (stdout_of (trace (run_script api environ)))
   + length (stderr_of (trace (run_script api environ))) <= 1)%nat.
Proof.
  main_cases api; try (destruct exc; cbn); lia.
Qed.

(** X6. The client is used in one fixed order and each operation at most
    once: the calls of any run are an initial part of Vehicle(username,
    password), auth(), getAllVehicles(), start(key). *)
Theorem main_call_order {client : Type} (api : VehicleAPI client)
    (environ : gmap string string) :
  exists k rest,
    [CallVehicle (os_environ_get environ "DRONEMOBILE_USERNAME")
       (os_environ_get environ "DRONEMOBILE_PASSWORD");
     CallAuth; CallGetAllVehicles; CallStart k]
    = (calls_of (trace (run_script api environ)) ++ rest)%list.
Proof.
  main_cases api; try (destruct exc; cbn);
    first [ exists VNone; eexists; reflexivity
          | eexists; eexists; reflexivity ].
Qed.

Lemma credentials_checked (environ : gmap string string) :
  py_not (os_environ_get environ "DRONEMOBILE_USERNAME")
  || py_not (os_environ_get environ "DRONEMOBILE_PASSWORD") = false ->
  exists u p,
    environ !! "DRONEMOBILE_USERNAME" = Some u /\ u <> ""
    /\ environ !! "DRONEMOBILE_PASSWORD" = Some p /\ p <> ""
    /\ os_environ_get environ "DRONEMOBILE_USERNAME" = VStr u
    /\ os_environ_get environ "DRONEMOBILE_PASSWORD" = VStr p.
Proof.
  intros H. apply orb_false_iff in H as [HU HP].
  unfold os_environ_get, py_not in *.
  destruct (environ !! "DRONEMOBILE_USERNAME") as [u|]; [|discriminate HU].
  destruct (environ !! "DRONEMOBILE_PASSWORD") as [p|]; [|discriminate HP].
  cbn in HU, HP. exists u, p.
  repeat split; try reflexivity.
  - intros ->. discriminate HU.
  - intros ->. discriminate HP.
Qed.

Lemma run_script_Vehicle_call {client : Type} (api : VehicleAPI client)
    (environ : gmap string string) (a b : PyValue) :
  In (CallVehicle a b) (trace (run_script api environ)) ->
  py_not (os_environ_get environ "DRONEMOBILE_USERNAME")
  || py_not (os_environ_get environ "DRONEMOBILE_PASSWORD") = false
  /\ a = os_environ_get environ "DRONEMOBILE_USERNAME"
  /\ b = os_environ_get environ "DRONEMOBILE_PASSWORD".
Proof.
  main_cases api; try (destruct exc; cbn); intros Hin;
    repeat (destruct Hin as [Hin|Hin];
            [try discriminate Hin; injection Hin as <- <-; now repeat split|]);
    contradiction.
Qed.

(** X7. The client is only ever constructed with both credentials as read
    from the environment, each a non-empty string. *)
Theorem main_credentials_verbatim {client : Type} (api : VehicleAPI client)
    (environ : gmap string string) (a b : PyValue) :
  In (CallVehicle a b) (trace (run_script api environ)) ->
  exists u p,
    environ !! "DRONEMOBILE_USERNAME" = Some u /\ u <> ""
    /\ environ !! "DRONEMOBILE_PASSWORD" = Some p /\ p <> ""
    /\ a = VStr u /\ b = VStr p.
Proof.
  intros Hin. apply run_script_Vehicle_call in Hin as (Hcred & -> & ->).
  destruct (credentials_checked environ Hcred)
    as (u & p & Hu & Hu' & Hp & Hp' & HU & HP).
  exists u, p. now rewrite HU, HP.
Qed.

Lemma main_credentials_verbatim_witness :
  In (CallVehicle (VStr "me@example.org") (VStr "hunter2"))
    (trace
       (run_script (fake_api (inr tt) (inr tt) good_listing (inr ok_response))
          good_environ))
  /\ exists u p,
    good_environ !! "DRONEMOBILE_USERNAME" = Some u /\ u <> ""
    /\ good_environ !! "DRONEMOBILE_PASSWORD" = Some p /\ p <> ""
    /\ VStr "me@example.org" = VStr u /\ VStr "hunter2" = VStr p.
Proof.
  assert (Hin : In (CallVehicle (VStr "me@example.org") (VStr "hunter2"))
                  (trace
                     (run_script
                        (fake_api (inr tt) (inr tt) good_listing
                           (inr ok_response))
                        good_environ))).
  { vm_compute. left. reflexivity. }
  split; [exact Hin|].
  exact (main_credentials_verbatim
           (fake_api (inr tt) (inr tt) good_listing (inr ok_response))
           good_environ _ _ Hin).
Defined.

(** X11. A start command is never issued with a falsy device key (None,
    empty string, zero, empty container). *)
Theorem main_start_key_truthy {client : Type} (api : VehicleAPI client)
    (environ : gmap string string) (k : PyValue) :
  In (CallStart k) (trace (run_script api environ)) ->
  py_bool k = true.
Proof.
  intros Hin.
  destruct (run_script_start_call api environ k Hin)
    as (c & c' & first_vehicle & others & _ & HK).
  destruct (get_device_key_returns_stored first_vehicle k HK)
    as (key & _ & _ & Hk).
  exact Hk.
Qed.

Lemma main_start_key_truthy_witness :
  In (CallStart (VStr "abc123"))
    (trace
       (run_script (fake_api (inr tt) (inr tt) good_listing (inr ok_response))
          good_environ))
  /\ py_bool (VStr "abc123") = true.
Proof.
  assert (Hin : In (CallStart (VStr "abc123"))
                  (trace
                     (run_script
                        (fake_api (inr tt) (inr tt) good_listing
                           (inr ok_response))
                        good_environ))).
  { vm_compute. do 3 right. left. reflexivity. }
  split; [exact Hin|].
  exact (main_start_key_truthy
           (fake_api (inr tt) (inr tt) good_listing (inr ok_response))
           good_environ _ Hin).
Defined.



(** X9. With both credentials set, an exception that is not an instance of
    Exception (an interrupt, a SystemExit) raised while building the
    client, authenticating or listing is not handled: the script prints
    nothing, makes no further call, and the exception reaches the top
    level, where a SystemExit sets the exit code. *)
Theorem main_auth_phase_propagates {client : Type} (api : VehicleAPI client)
    (environ : gmap string string) (u p : string) (exc : PyExc)
    (calls : list Event) :
  environ !! "DRONEMOBILE_USERNAME" = Some u -> u <> "" ->
  environ !! "DRONEMOBILE_PASSWORD" = Some p -> p <> "" ->
  is_Exception exc = false ->
  (api_Vehicle api (VStr u) (VStr p) = inl exc
   /\ calls = [CallVehicle (VStr u) (VStr p)])
  \/ (exists c0,
        api_Vehicle api (VStr u) (VStr p) = inr c0
        /\ api_auth api c0 = inl exc
        /\ calls = [CallVehicle (VStr u) (VStr p); CallAuth])
  \/ (exists c0 c1,
        api_Vehicle api (VStr u) (VStr p) = inr c0
        /\ api_auth api c0 = inr c1
        /\ api_getAllVehicles api c1 = inl exc
        /\ calls = [CallVehicle (VStr u) (VStr p); CallAuth;
                    CallGetAllVehicles]) ->
  run_script api environ =
  {| trace := calls;
     status := match exc with
               | SystemExit_ code => Exit code
               | _ => Traceback exc
               end |}.
Proof.
  intros Hu Hu' Hp Hp' Hexc Hfail. run_main.
  rewrite (credentials_pass environ u p Hu Hu' Hp Hp').
  rewrite (os_environ_get_Some _ _ _ Hu), (os_environ_get_Some _ _ _ Hp).
  cbn.
  destruct Hfail
    as [[HV ->] | [(c0 & HV & HA & ->) | (c0 & c1 & HV & HA & HL & ->)]].
  - rewrite HV, Hexc. destruct exc; try discriminate Hexc; reflexivity.
  - rewrite HV. cbn. rewrite HA, Hexc.
    destruct exc; try discriminate Hexc; reflexivity.
  - rewrite HV. cbn. rewrite HA. cbn. rewrite HL, Hexc.
    destruct exc; try discriminate Hexc; reflexivity.
Qed.

Lemma main_auth_phase_propagates_witness :
  run_script
    (fake_api (inr tt) (inr tt) (inl (SystemExit_ 3)) (inr ok_response))
    good_environ =
  {| trace :=
       [CallVehicle (VStr "me@example.org") (VStr "hunter2"); CallAuth;
        CallGetAllVehicles];
     status := Exit 3 |}.
Proof.
  apply (main_auth_phase_propagates
           (fake_api (inr tt) (inr tt) (inl (SystemExit_ 3))
              (inr ok_response))
           good_environ "me@example.org" "hunter2" (SystemExit_ 3)
           [CallVehicle (VStr "me@example.org") (VStr "hunter2"); CallAuth;
            CallGetAllVehicles]).
  - reflexivity.
  - discriminate.
  - reflexivity.
  - discriminate.
  - reflexivity.
  - right. right. exists tt, tt. repeat split; reflexivity.
Defined.

(** X10. When the first record yields a device key and the start command
    raises an exception that is not an instance of Exception, the script
    prints nothing on either stream and the exception reaches the top
    level, where a SystemExit sets the exit code. *)
Theorem main_start_propagates {client : Type} (api : VehicleAPI client)
    (environ : gmap string string) (u p : string) (c0 c1 c2 : client)
    (first_vehicle : PyDict) (others : list PyDict) (device_key : PyValue)
    (exc : PyExc) :
  environ !! "DRONEMOBILE_USERNAME" = Some u -> u <> "" ->
  environ !! "DRONEMOBILE_PASSWORD" = Some p -> p <> "" ->
  api_Vehicle api (VStr u) (VStr p) = inr c0 ->
  api_auth api c0 = inr c1 ->
  api_getAllVehicles api c1 = inr (Some (first_vehicle :: others), c2) ->
  call_get_device_key first_vehicle = inr device_key ->
  api_start api c2 device_key = inl exc ->
  is_Exception exc = false ->
  run_script api environ =
  {| trace :=
       [CallVehicle (VStr u) (VStr p); CallAuth; CallGetAllVehicles;
        CallStart device_key];
     status := match exc with
               | SystemExit_ code => Exit code
               | _ => Traceback exc
               end |}.
Proof.
  intros Hu Hu' Hp Hp' HV HA HL HK HS Hexc.
  rewrite (run_listed api environ u p Hu Hu' Hp Hp' c0 c1 c2 _ HV HA HL).
  cbn. now rewrite HK, HS, Hexc.
Qed.

Lemma main_start_propagates_witness :
  run_script interrupted_start_api good_environ =
  {| trace :=
       [CallVehicle (VStr "me@example.org") (VStr "hunter2"); CallAuth;
        CallGetAllVehicles; CallStart (VStr "abc123")];
     status := Traceback (BaseException_ "KeyboardInterrupt" "") |}.
Proof.
  apply (main_start_propagates interrupted_start_api good_environ
           "me@example.org" "hunter2" tt tt tt
           [("deviceKey", VStr "abc123"); ("name", VStr "Car")]
           [[("device_key", VStr "second"); ("name", VStr "Van")]]
           (VStr "abc123") (BaseException_ "KeyboardInterrupt" "")).
  - reflexivity.
  - discriminate.
  - reflexivity.
  - discriminate.
  - reflexivity.
  - reflexivity.
  - reflexivity.
  - reflexivity.
  - reflexivity.
  - reflexivity.
Defined.

(** * Properties of the module body *)

(** X12. If importing [drone_mobile] raises an ImportError, the module
    prints the two-line hint to stderr and raises the same exception again:
    the run is that one line and a traceback, whatever the environment
    holds and whether the file is run or imported; [main] never starts. *)
Theorem module_import_fails {client : Type} (exc : PyExc) (name : string)
    (environ : gmap string string) :
  is_ImportError exc = true ->
  run_module (client := client) (inl exc) name environ =
  {| trace :=
       [PrintStderr
          ("Error: The 'drone_mobile' package is not installed. Did you forget to"
           ++ String "010" "install the dependency?")];
     status := Traceback exc |}.
Proof.
  intros Hexc. unfold run_module, module_body, try_except, bind, eval.
  rewrite Hexc. destruct exc; try discriminate Hexc. reflexivity.
Qed.

Lemma module_import_fails_witness :
  run_module (client := unit)
    (inl (Exception_ "ModuleNotFoundError" "No module named 'drone_mobile'"))
    "__main__" good_environ =
  {| trace :=
       [PrintStderr
          ("Error: The 'drone_mobile' package is not installed. Did you forget to"
           ++ String "010" "install the dependency?")];
     status :=
       Traceback
         (Exception_ "ModuleNotFoundError" "No module named 'drone_mobile'") |}.
Proof.
  apply (module_import_fails (client := unit)
           (Exception_ "ModuleNotFoundError" "No module named 'drone_mobile'")
           "__main__" good_environ).
  reflexivity.
Defined.

(** X13. Loading the file under any name but "__main__", with the import
    succeeding, does nothing that can be seen: no client call, no output,
    a normal end. *)
Theorem module_imported_is_silent {client : Type} (api : VehicleAPI client)
    (name : string) (environ : gmap string string) :
  name <> "__main__" ->
  run_module (inr api) name environ = {| trace := []; status := Exit 0 |}.
Proof.
  intros Hname. unfold run_module, module_body, try_except, bind, eval, when.
  destruct (String.eqb_spec name "__main__"); [contradiction | reflexivity].
Qed.

Lemma module_imported_is_silent_witness :
  run_module (inr (fake_api (inr tt) (inr tt) good_listing (inr ok_response)))
    "start_my_car" good_environ
  = {| trace := []; status := Exit 0 |}.
Proof.
  apply (module_imported_is_silent
           (fake_api (inr tt) (inr tt) good_listing (inr ok_response))
           "start_my_car" good_environ).
  discriminate.
Defined.

(** Run as a script with the import succeeding, the module is [main] on
    the imported class: what is proved of [run_script] holds of the file as
    a whole. *)
Lemma module_runs_main {client : Type} (api : VehicleAPI client)
    (environ : gmap string string) :
  run_module (inr api) "__main__" environ = run_script api environ.
Proof.
  unfold run_module, run_script, module_body, try_except, bind, eval, when.
  cbn. destruct (main api environ []) as [[exc|[]] log]; reflexivity.
Qed.

(** X14. The environment matters only through DRONEMOBILE_USERNAME and
    DRONEMOBILE_PASSWORD: two environments that agree on these two
    variables give the same run. *)
Theorem main_environment_only_credentials {client : Type}
    (api : VehicleAPI client) (environ environ' : gmap string string) :
  environ !! "DRONEMOBILE_USERNAME" = environ' !! "DRONEMOBILE_USERNAME" ->
  environ !! "DRONEMOBILE_PASSWORD" = environ' !! "DRONEMOBILE_PASSWORD" ->
  run_script api environ = run_script api environ'.
Proof.
  intros HU HP. unfold run_script, main, os_environ_get.
  now rewrite HU, HP.
Qed.

Lemma main_environment_only_credentials_witness :
  run_script (fake_api (inr tt) (inr tt) good_listing (inr ok_response))
    (<["HOME" := "/home/runner"]> good_environ)
  = run_script (fake_api (inr tt) (inr tt) good_listing (inr ok_response))
      good_environ.
Proof.
  apply (main_environment_only_credentials
           (fake_api (inr tt) (inr tt) good_listing (inr ok_response))
           (<["HOME" := "/home/runner"]> good_environ) good_environ).
  - reflexivity.
  - reflexivity.
Defined.
